(** * latencyresponder: the latency-responder workload of Project Edge

    The workload consists of a single event function, [event_handler]
    (latencyresponder.cpp), written against the ENS workload runtime
    API declared in ens.h.  The event function is embedded as an
    interaction tree over the API calls of ens.h; the runtime behind the
    API is a parameter of the semantics. *)

From Stdlib Require Import ZArith List Bool Lia String.
From Stdlib Require Import Strings.Byte.
From ITree Require Import ITree ITreeFacts.
Import ListNotations.
Import ITreeNotations.
Local Open Scope Z_scope.
Local Open Scope itree_scope.

(** ** ens.h: data passed across the API *)

(** [uint32_t] values are integers in [0, 2^32).  The event function only
    compares and forwards them, so no wrap-around arises. *)
Definition uint32 := Z.

(** Addresses: of an [ENSUserData] structure, or of a buffer. *)
Definition addr := Z.

Definition NULL : addr := 0.

(** [typedef struct { uint32_t length; uint8_t* p; } ENSUserData;] *)
Record ENSUserData : Type := mkENSUserData {
  length : uint32;
  p : addr
}.

(** Event types for event function callbacks. *)
Definition EVENT_REQUEST : uint32 := 0.
Definition EVENT_NOTIFY : uint32 := 1.
Definition EVENT_SESSION_START : uint32 := 10.
Definition EVENT_SESSION_END : uint32 := 20.
Definition EVENT_SESSION_DISCONNECT : uint32 := 21.

(** ** ens.h: the API functions

    One constructor per function declared in ens.h, carrying its
    arguments.  The event function argument of [ENSSessionStart] is a
    function pointer, kept as an optional address. *)
Inductive ens_call : Type :=
| ENSSessionStart (interface_name : string) (event_fn : option addr)
| ENSSessionEnd (session_id : uint32)
| ENSSessionAbort (session_id reason : uint32) (info : string)
| ENSSessionRequest (session_id sqn : uint32) (userdata : addr)
| ENSSessionNotify (session_id sqn : uint32) (userdata : addr)
| ENSSessionAlloc (len : Z)
| ENSSessionFree (data : addr).

(** Return type of each API function. *)
Definition ens_ret (c : ens_call) : Type :=
  match c with
  | ENSSessionStart _ _ => uint32
  | ENSSessionEnd _ => unit
  | ENSSessionAbort _ _ _ => unit
  | ENSSessionRequest _ _ _ => bool
  | ENSSessionNotify _ _ _ => bool
  | ENSSessionAlloc _ => addr
  | ENSSessionFree _ => unit
  end.

(** The events of a workload: calls into the runtime. *)
Variant ensE : Type -> Type :=
| Invoke (c : ens_call) : ensE (ens_ret c).

(** ** latencyresponder.cpp *)

(** [void event_handler(uint32_t session_id, uint32_t event_type,
                        uint32_t sqn, ENSUserData* data)]

    The function has no state of its own and never dereferences [data]:
    its only actions are calls into the runtime.  The result of
    [ENSSessionNotify] is discarded, and nothing follows the conditional. *)
Definition event_handler (session_id event_type sqn : uint32) (data : addr)
  : itree ensE unit :=
  if event_type =? EVENT_NOTIFY then
    ITree.bind (ITree.trigger (Invoke (ENSSessionNotify session_id sqn data)))
               (fun _ : bool => Ret tt)
  else
    Ret tt.

(** The type of event functions, [ENSEventFn]. *)
Definition ENSEventFn : Type := uint32 -> uint32 -> uint32 -> addr -> itree ensE unit.

(** ** Running a workload against a runtime *)

Section Semantics.

(** Internal state of the runtime (session table, queues, ...). *)
Variable RT : Type.

(** What a call can see and change: the [ENSUserData] structures and the
    buffers in memory, and the runtime's own state. *)
Record World : Type := mkWorld {
  descs : addr -> option ENSUserData;
  bufs : addr -> option (list byte);
  rts : RT
}.

(** A runtime implements every API function as a state transformer that
    returns. *)
Definition runtime : Type := forall c : ens_call, World -> ens_ret c * World.

(** One crossing of the API boundary. *)
Record crossing : Type := mkCrossing {
  call : ens_call;
  ret : ens_ret call;
  before : World;
  after : World
}.

Definition trace : Type := list crossing.

Definition calls (tr : trace) : list ens_call := List.map call tr.

(** Run a workload: every [Invoke] is answered by the runtime, and the
    crossings are recorded in order. *)
Fixpoint exec {A : Type} (rt : runtime) (fuel : nat) (t : itree ensE A) (w : World)
  : option (A * World * trace) :=
  match fuel with
  | O => None
  | S n =>
      match observe t with
      | RetF a => Some (a, w, [])
      | TauF t' => exec rt n t' w
      | VisF e k =>
          match e in ensE X return (X -> itree ensE A) -> option (A * World * trace) with
          | Invoke c => fun k' =>
              let (r, w1) := rt c w in
              match exec rt n (k' r) w1 with
              | Some (a, w2, tr) => Some (a, w2, mkCrossing c r w w1 :: tr)
              | None => None
              end
          end k
      end
  end.

End Semantics.

Arguments mkWorld {RT} _ _ _.
Arguments descs {RT} _ _.
Arguments bufs {RT} _ _.
Arguments rts {RT} _.
Arguments mkCrossing {RT} _ _ _ _.
Arguments call {RT} _.
Arguments ret {RT} _.
Arguments before {RT} _.
Arguments after {RT} _.
Arguments calls {RT} _.
Arguments exec {RT A} _ _ _ _.

(** ** Buffer ownership *)

(** Modelled from the spec: the runtime that keeps the owner of each buffer
    is not part of the workload's sources.  Following the data model
    (a buffer is owned by exactly one side at any instant; crossing the API
    boundary transfers ownership) and the design notes (a buffer handle
    records its current owner, pool, runtime or caller, and every API
    crossing asserts and flips that tag), each buffer address carries one
    tag. *)
Inductive owner : Type := OwnedByPool | OwnedByRuntime | OwnedByWorkload.

Definition ownership : Type := addr -> owner.

Definition owner_eqb (a b : owner) : bool :=
  match a, b with
  | OwnedByPool, OwnedByPool => true
  | OwnedByRuntime, OwnedByRuntime => true
  | OwnedByWorkload, OwnedByWorkload => true
  | _, _ => false
  end.

Definition hand_over (o : ownership) (b : addr) (to : owner) : ownership :=
  fun x => if x =? b then to else o x.

Section Ownership.

Context {RT : Type}.

(** Modelled from the spec: the effect of one crossing on the tags.  A
    crossing that passes a buffer the workload does not own (a double
    free, a use after transfer, a dangling [ENSUserData]) has no
    successor.  [notify] and [request] take the buffer that the
    [ENSUserData] references when the call is made, whatever they return;
    a successful [request] gives the response buffer to the caller;
    [alloc] gives a pool buffer to the caller unless it returns NULL;
    [free] returns a buffer of the caller to the pool. *)
Definition cross (o : ownership) (x : crossing RT) : option ownership :=
  match x with
  | mkCrossing c r w w' =>
      match c as c0 return ens_ret c0 -> option ownership with
      | ENSSessionNotify _ _ d => fun _ =>
          match descs w d with
          | Some ud =>
              if owner_eqb (o (p ud)) OwnedByWorkload
              then Some (hand_over o (p ud) OwnedByRuntime)
              else None
          | None => None
          end
      | ENSSessionRequest _ _ d => fun ok =>
          match descs w d with
          | Some ud =>
              if owner_eqb (o (p ud)) OwnedByWorkload
              then
                let o1 := hand_over o (p ud) OwnedByRuntime in
                if ok
                then match descs w' d with
                     | Some ud' => Some (hand_over o1 (p ud') OwnedByWorkload)
                     | None => None
                     end
                else Some o1
              else None
          | None => None
          end
      | ENSSessionAlloc _ => fun b =>
          if b =? NULL then Some o
          else if owner_eqb (o b) OwnedByPool
               then Some (hand_over o b OwnedByWorkload)
               else None
      | ENSSessionFree b => fun _ =>
          if owner_eqb (o b) OwnedByWorkload
          then Some (hand_over o b OwnedByPool)
          else None
      | ENSSessionStart _ _ => fun _ => Some o
      | ENSSessionEnd _ => fun _ => Some o
      | ENSSessionAbort _ _ _ => fun _ => Some o
      end r
  end.

(** The tags after a whole trace, if every crossing was legal. *)
Fixpoint audit (o : ownership) (tr : trace RT) : option ownership :=
  match tr with
  | [] => Some o
  | x :: tr' =>
      match cross o x with
      | Some o' => audit o' tr'
      | None => None
      end
  end.

End Ownership.

(** ** Concurrent invocations *)

Section Threads.

Context {RT : Type}.

(** An invocation in progress: what is left to run, the calls made so
    far, and whether it has returned. *)
Record thread : Type := mkThread {
  code : itree ensE unit;
  made : list ens_call;
  finished : bool
}.

Definition spawn (t : itree ensE unit) : thread := mkThread t [] false.

(** One step of one invocation against the shared world. *)
Definition step (rt : runtime RT) (th : thread) (w : World RT) : thread * World RT :=
  match observe (code th) with
  | RetF _ => (mkThread (code th) (made th) true, w)
  | TauF t' => (mkThread t' (made th) false, w)
  | VisF e k =>
      match e in ensE X return (X -> itree ensE unit) -> thread * World RT with
      | Invoke c => fun k' =>
          let (r, w1) := rt c w in
          (mkThread (k' r) (made th ++ [c]) false, w1)
      end k
  end.

(** Two invocations on worker threads, interleaved by a schedule:
    [true] steps the first, [false] the second. *)
Fixpoint interleave (rt : runtime RT) (sched : list bool) (t1 t2 : thread) (w : World RT)
  : thread * thread * World RT :=
  match sched with
  | [] => (t1, t2, w)
  | true :: s => let (t1', w') := step rt t1 w in interleave rt s t1' t2 w'
  | false :: s => let (t2', w') := step rt t2 w in interleave rt s t1 t2' w'
  end.

End Threads.

(** ** The runtime around a request event *)

Section Dispatch.

Context {RT : Type}.

(** Modelled from the spec: the inbound side of the Dispatcher is not part
    of the workload's sources.  An inbound payload reaches the callback
    through a user-data descriptor (buffer pointer and [u32] length): the
    [ENSUserData] at [d] references the buffer at [b], which holds the
    payload. *)
Definition deliver (w : World RT) (d b : addr) (payload : list byte) : World RT :=
  mkWorld
    (fun x => if x =? d
              then Some (mkENSUserData (Z.of_nat (List.length payload) mod 2 ^ 32) b)
              else descs w x)
    (fun x => if x =? b then Some payload else bufs w x)
    (rts w).

(** Modelled from the spec: the Dispatcher's packaging step is not part of
    the workload's sources.  The data a user-data reference denotes:
    the first [length] bytes of the buffer it points to. *)
Definition package (w : World RT) (d : addr) : option (list byte) :=
  match descs w d with
  | Some ud =>
      match bufs w (p ud) with
      | Some bytes => Some (firstn (Z.to_nat (length ud)) bytes)
      | None => None
      end
  | None => None
  end.

(** Modelled from the spec: the Dispatcher is not part of the workload's
    sources.  It invokes the session's callback on the request event;
    after the callback returns, the (possibly replaced) user-data
    reference is packaged and sent back as the response. *)
Definition dispatch_request (rt : runtime RT) (fuel : nat) (callback : ENSEventFn)
    (session_id sqn : uint32) (d b : addr) (payload : list byte) (w : World RT)
  : option (list byte * World RT) :=
  match exec rt fuel (callback session_id EVENT_REQUEST sqn d) (deliver w d b payload) with
  | Some (_, w', _) =>
      match package w' d with
      | Some response => Some (response, w')
      | None => None
      end
  | None => None
  end.

(** Modelled from the spec: [request] of the Session API is only declared
    in ens.h.  Seen from the caller, with the workload bound to [callback]
    at the other end of the session: it returns true with the user data
    rewritten to the response on success, and false otherwise. *)
Definition request (rt : runtime RT) (fuel : nat) (callback : ENSEventFn)
    (w : World RT) (d b : addr) (session_id sqn : uint32) (userdata : list byte)
  : bool * list byte :=
  match dispatch_request rt fuel callback session_id sqn d b userdata w with
  | Some (response, _) => (true, response)
  | None => (false, userdata)
  end.

End Dispatch.

(** ** A runtime to run the event function on concrete events *)

(** The sends handed to the transport: session, sequence number and the
    user data the [ENSUserData] referenced. *)
Definition outbox : Type := list (uint32 * uint32 * option ENSUserData).

(** A runtime whose [ENSSessionNotify] queues the send and answers [ok];
    the other functions do nothing ([ENSSessionStart] answers session 0,
    [ENSSessionAlloc] answers NULL, [ENSSessionRequest] fails). *)
Definition queueing_runtime (ok : bool) : runtime outbox :=
  fun c =>
    match c as c0 return World outbox -> ens_ret c0 * World outbox with
    | ENSSessionNotify session_id sqn d => fun w =>
        (ok, mkWorld (descs w) (bufs w) (rts w ++ [(session_id, sqn, descs w d)]))
    | ENSSessionRequest _ _ _ => fun w => (false, w)
    | ENSSessionStart _ _ => fun w => (0, w)
    | ENSSessionEnd _ => fun w => (tt, w)
    | ENSSessionAbort _ _ _ => fun w => (tt, w)
    | ENSSessionAlloc _ => fun w => (NULL, w)
    | ENSSessionFree _ => fun w => (tt, w)
    end.

(** No [ENSUserData], no buffer, nothing queued. *)
Definition empty_world : World outbox := mkWorld (fun _ => None) (fun _ => None) [].

Definition ping : list byte := list_byte_of_string "ping".
Definition pong : list byte := list_byte_of_string "pong".

(** ** Predicates on calls *)

Definition is_notify (c : ens_call) : bool :=
  match c with
  | ENSSessionNotify _ _ _ => true
  | _ => false
  end.

(** The operations that block on remote completion: [request] and [end]
    (and the deprecated [abort], equivalent to [end]). *)
Definition blocking (c : ens_call) : bool :=
  match c with
  | ENSSessionRequest _ _ _ => true
  | ENSSessionEnd _ => true
  | ENSSessionAbort _ _ _ => true
  | ENSSessionStart _ _ => false
  | ENSSessionNotify _ _ _ => false
  | ENSSessionAlloc _ => false
  | ENSSessionFree _ => false
  end.

(** The sequence number of a data-transfer send. *)
Definition send_sqn (c : ens_call) : option uint32 :=
  match c with
  | ENSSessionRequest _ sqn _ => Some sqn
  | ENSSessionNotify _ sqn _ => Some sqn
  | _ => None
  end.

(** Data-transfer event kinds, as opposed to session lifecycle kinds. *)
Definition data_transfer (event_type : uint32) : bool :=
  (event_type =? EVENT_REQUEST) || (event_type =? EVENT_NOTIFY).

(** The calls [event_handler] makes, read off its arguments. *)
Definition echoed (session_id event_type sqn : uint32) (data : addr) : list ens_call :=
  if event_type =? EVENT_NOTIFY then [ENSSessionNotify session_id sqn data] else [].

(** How far an invocation of [event_handler] has come after [k] of its
    steps: not started; then past its calls; then returned. *)
Definition at_stage (session_id event_type sqn : uint32) (data : addr)
    (k : nat) (th : thread) : Prop :=
  match k with
  | O => th = spawn (event_handler session_id event_type sqn data)
  | S O =>
      observe (code th) = RetF tt
      /\ made th = echoed session_id event_type sqn data
  | S (S _) =>
      observe (code th) = RetF tt
      /\ made th = echoed session_id event_type sqn data
      /\ finished th = true
  end.

(** The received buffer at 8192, the workload's after the notify event. *)
Definition received : ownership := hand_over (fun _ => OwnedByPool) 8192 OwnedByWorkload.

(** ** Events delivered one after another, or to a pool of workers *)

(** The arguments of one invocation of an event function (ens.h,
    [ENSEventFn]). *)
Record event : Type := mkEvent {
  ev_session : uint32;
  ev_type : uint32;
  ev_sqn : uint32;
  ev_data : addr
}.

Definition invoke (callback : ENSEventFn) (e : event) : itree ensE unit :=
  callback (ev_session e) (ev_type e) (ev_sqn e) (ev_data e).

(** The runtime invokes the event function when an event happens on a
    session; here once per event, each invocation after the previous one
    has returned. *)
Fixpoint serve (callback : ENSEventFn) (events : list event) : itree ensE unit :=
  match events with
  | [] => Ret tt
  | e :: rest => ITree.bind (invoke callback e) (fun _ : unit => serve callback rest)
  end.

Definition is_notify_event (e : event) : bool := ev_type e =? EVENT_NOTIFY.

(** The call [event_handler] makes for one event, if any. *)
Definition echo (e : event) : list ens_call :=
  echoed (ev_session e) (ev_type e) (ev_sqn e) (ev_data e).

Fixpoint replace_nth {A : Type} (i : nat) (x : A) (l : list A) : list A :=
  match l, i with
  | [], _ => []
  | _ :: l', O => x :: l'
  | y :: l', S i' => y :: replace_nth i' x l'
  end.

Section Pool.

Context {RT : Type}.

(** The runtime may invoke the same event function concurrently with
    different events (ens.h, Threading): any number of invocations on a
    shared world, stepped in the order of a schedule of worker indices.  An
    index without a worker is skipped. *)
Fixpoint pool_run (rt : runtime RT) (sched : list nat) (workers : list thread) (w : World RT)
  : list thread * World RT :=
  match sched with
  | [] => (workers, w)
  | i :: s =>
      match nth_error workers i with
      | Some th =>
          let (th', w') := step rt th w in
          pool_run rt s (replace_nth i th' workers) w'
      | None => pool_run rt s workers w
      end
  end.

End Pool.

(** A runtime like [queueing_runtime], except that ending or aborting a
    session drops what is queued and that no allocation fails. *)
Definition dropping_runtime (ok : bool) : runtime outbox :=
  fun c =>
    match c as c0 return World outbox -> ens_ret c0 * World outbox with
    | ENSSessionNotify session_id sqn d => fun w =>
        (ok, mkWorld (descs w) (bufs w) (rts w ++ [(session_id, sqn, descs w d)]))
    | ENSSessionRequest _ _ _ => fun w => (false, w)
    | ENSSessionStart _ _ => fun w => (1, w)
    | ENSSessionEnd _ => fun w => (tt, mkWorld (descs w) (bufs w) [])
    | ENSSessionAbort _ _ _ => fun w => (tt, mkWorld (descs w) (bufs w) [])
    | ENSSessionAlloc _ => fun w => (8192, w)
    | ENSSessionFree _ => fun w => (tt, w)
    end.

(** The buffers that the notify events of a sequence reference, given the
    [ENSUserData] structures in memory. *)
Definition notified_buffers (ds : addr -> option ENSUserData) (events : list event)
  : list addr :=
  flat_map
    (fun e =>
       if is_notify_event e
       then match ds (ev_data e) with
            | Some ud => [p ud]
            | None => []
            end
       else [])
    events.

(** * Properties *)

(** ** Shape of the event function *)

Lemma event_handler_notify (session_id sqn : uint32) (data : addr) :
  event_handler session_id EVENT_NOTIFY sqn data
  = ITree.bind (ITree.trigger (Invoke (ENSSessionNotify session_id sqn data)))
               (fun _ : bool => Ret tt).
Proof. reflexivity. Qed.

Lemma event_handler_other (session_id event_type sqn : uint32) (data : addr) :
  event_type <> EVENT_NOTIFY ->
  event_handler session_id event_type sqn data = Ret tt.
Proof.
  intros Hne. unfold event_handler.
  destruct (Z.eqb_spec event_type EVENT_NOTIFY) as [Heq | _]; [contradiction | reflexivity].
Qed.

Section Runs.

Context {RT : Type}.
Variable rt : runtime RT.

(** The run on a notify event: one crossing, then the return. *)
Lemma exec_notify (n : nat) (session_id sqn : uint32) (data : addr) (w : World RT) :
  exec rt (S (S n)) (event_handler session_id EVENT_NOTIFY sqn data) w
  = let c := ENSSessionNotify session_id sqn data in
    Some (tt, snd (rt c w), [mkCrossing c (fst (rt c w)) w (snd (rt c w))]).
Proof.
  rewrite event_handler_notify. cbn.
  destruct (rt (ENSSessionNotify session_id sqn data) w) as [r w1].
  reflexivity.
Qed.

(** The run on any other event: the return, at once. *)
Lemma exec_other (n : nat) (session_id event_type sqn : uint32) (data : addr) (w : World RT) :
  event_type <> EVENT_NOTIFY ->
  exec rt (S n) (event_handler session_id event_type sqn data) w = Some (tt, w, []).
Proof.
  intros Hne. rewrite (event_handler_other _ _ _ _ Hne). reflexivity.
Qed.

Lemma exec_calls (n : nat) (session_id event_type sqn : uint32) (data : addr) (w : World RT) :
  exists w' tr,
    exec rt (S (S n)) (event_handler session_id event_type sqn data) w = Some (tt, w', tr)
    /\ calls tr = echoed session_id event_type sqn data.
Proof.
  unfold echoed.
  destruct (Z.eqb_spec event_type EVENT_NOTIFY) as [-> | Hne].
  - rewrite exec_notify. cbn. eauto.
  - rewrite (exec_other _ _ _ _ _ _ Hne). eauto.
Qed.

End Runs.

(** ** The echo of a notify *)

(** C1.  On an event whose type is EVENT_NOTIFY the event function is
    exactly one call of ENSSessionNotify, with the session identifier, the
    sequence number and the ENSUserData pointer it received, followed by
    the return: as a tree it is that single call, and against every runtime
    its run crosses the API once, from the world it was invoked in. *)
Theorem notify_is_echoed_once {RT : Type} (rt : runtime RT) (n : nat)
    (session_id event_type sqn : uint32) (data : addr) (w : World RT) :
  event_type = EVENT_NOTIFY ->
  event_handler session_id event_type sqn data
    ≅ Vis (Invoke (ENSSessionNotify session_id sqn data)) (fun _ : bool => Ret tt)
  /\ exists (r : bool) (w' : World RT),
       exec rt (S (S n)) (event_handler session_id event_type sqn data) w
       = Some (tt, w', [mkCrossing (ENSSessionNotify session_id sqn data) r w w']).
Proof.
  intros ->. split.
  - rewrite event_handler_notify. apply bind_trigger.
  - rewrite exec_notify. cbn. eauto.
Qed.

Lemma notify_is_echoed_once_witness :
  EVENT_NOTIFY = EVENT_NOTIFY
  /\ (event_handler 7 EVENT_NOTIFY 5 4096
        ≅ Vis (Invoke (ENSSessionNotify 7 5 4096)) (fun _ : bool => Ret tt)
      /\ exists (r : bool) (w' : World outbox),
           exec (queueing_runtime true) 2 (event_handler 7 EVENT_NOTIFY 5 4096) empty_world
           = Some (tt, w', [mkCrossing (ENSSessionNotify 7 5 4096) r empty_world w'])).
Proof.
  split; [reflexivity |].
  apply (notify_is_echoed_once (queueing_runtime true) 0 7 EVENT_NOTIFY 5 4096 empty_world).
  reflexivity.
Defined.

(** ** Events that are returned unchanged *)

Section Packaging.

Context {RT : Type}.

(** A delivered payload whose length fits the [u32] length field is what
    its user-data reference denotes. *)
Lemma package_deliver (w : World RT) (d b : addr) (payload : list byte) :
  Z.of_nat (List.length payload) < 2 ^ 32 ->
  package (deliver w d b payload) d = Some payload.
Proof.
  intros Hlen. unfold package, deliver. cbn [descs bufs p length].
  rewrite !Z.eqb_refl.
  rewrite Z.mod_small by lia. cbn [length].
  rewrite Nat2Z.id, firstn_all. reflexivity.
Qed.

End Packaging.

(** C2.  On an event whose type is EVENT_REQUEST the event function returns
    at once: it crosses the API nowhere and leaves the world, hence the
    ENSUserData (length and buffer pointer), as it found it; the response
    the dispatcher packages after the callback has returned is the request
    payload. *)
Theorem request_is_returned_unchanged {RT : Type} (rt : runtime RT) (n : nat)
    (session_id event_type sqn : uint32) (data : addr) (w : World RT) :
  event_type = EVENT_REQUEST ->
  event_handler session_id event_type sqn data ≅ Ret tt
  /\ exec rt (S n) (event_handler session_id event_type sqn data) w = Some (tt, w, [])
  /\ forall (b : addr) (payload : list byte),
       Z.of_nat (List.length payload) < 2 ^ 32 ->
       dispatch_request rt (S n) event_handler session_id sqn data b payload w
       = Some (payload, deliver w data b payload).
Proof.
  intros ->.
  assert (Hne : EVENT_REQUEST <> EVENT_NOTIFY) by discriminate.
  split; [| split].
  - rewrite (event_handler_other _ _ _ _ Hne). reflexivity.
  - apply exec_other, Hne.
  - intros b payload Hlen. unfold dispatch_request.
    rewrite (exec_other rt n _ _ _ _ _ Hne).
    rewrite (package_deliver _ _ _ _ Hlen). reflexivity.
Qed.

Lemma request_is_returned_unchanged_witness :
  EVENT_REQUEST = EVENT_REQUEST
  /\ exec (queueing_runtime true) 1 (event_handler 7 EVENT_REQUEST 42 4096)
       (deliver empty_world 4096 8192 ping)
     = Some (tt, deliver empty_world 4096 8192 ping, [])
  /\ dispatch_request (queueing_runtime true) 1 event_handler 7 42 4096 8192 ping empty_world
     = Some (ping, deliver empty_world 4096 8192 ping).
Proof.
  split; [reflexivity |].
  destruct (request_is_returned_unchanged (queueing_runtime true) 0 7 EVENT_REQUEST 42 4096
              (deliver empty_world 4096 8192 ping) eq_refl) as [_ [Hrun _]].
  destruct (request_is_returned_unchanged (queueing_runtime true) 0 7 EVENT_REQUEST 42 4096
              empty_world eq_refl) as [_ [_ Hresp]].
  split; [exact Hrun |].
  apply Hresp. vm_compute. reflexivity.
Defined.

(** C4.  On an event whose type is neither EVENT_NOTIFY nor EVENT_REQUEST
    (a session start, end or disconnect, or a value that is no event kind)
    the event function returns at once: it crosses the API nowhere and
    leaves the world, hence the ENSUserData, as it found it. *)
Theorem other_events_are_ignored {RT : Type} (rt : runtime RT) (n : nat)
    (session_id event_type sqn : uint32) (data : addr) (w : World RT) :
  event_type <> EVENT_NOTIFY ->
  event_type <> EVENT_REQUEST ->
  event_handler session_id event_type sqn data ≅ Ret tt
  /\ exists w' : World RT,
       exec rt (S n) (event_handler session_id event_type sqn data) w = Some (tt, w', [])
       /\ descs w' data = descs w data
       /\ w' = w.
Proof.
  intros Hne _. split.
  - rewrite (event_handler_other _ _ _ _ Hne). reflexivity.
  - exists w. split; [apply exec_other, Hne | split; reflexivity].
Qed.

Lemma other_events_are_ignored_witness :
  EVENT_SESSION_DISCONNECT <> EVENT_NOTIFY
  /\ EVENT_SESSION_DISCONNECT <> EVENT_REQUEST
  /\ (event_handler 9 EVENT_SESSION_DISCONNECT 0 4096 ≅ Ret tt
      /\ exists w' : World outbox,
           exec (queueing_runtime true) 1 (event_handler 9 EVENT_SESSION_DISCONNECT 0 4096)
             (deliver empty_world 4096 8192 ping)
           = Some (tt, w', [])
           /\ descs w' 4096 = descs (deliver empty_world 4096 8192 ping) 4096
           /\ w' = deliver empty_world 4096 8192 ping).
Proof.
  split; [discriminate | split; [discriminate |]].
  apply (other_events_are_ignored (queueing_runtime true) 0 9 EVENT_SESSION_DISCONNECT 0 4096
           (deliver empty_world 4096 8192 ping)); discriminate.
Defined.

(** ** Ownership of the received buffer *)

Lemma hand_over_same (o : ownership) (b : addr) (to : owner) :
  hand_over o b to b = to.
Proof. unfold hand_over. rewrite Z.eqb_refl. reflexivity. Qed.

Lemma hand_over_other (o : ownership) (b x : addr) (to : owner) :
  x <> b -> hand_over o b to x = o x.
Proof.
  intros Hne. unfold hand_over.
  destruct (Z.eqb_spec x b) as [Heq | _]; [contradiction | reflexivity].
Qed.

(** C3.  On an EVENT_NOTIFY event whose ENSUserData references a buffer the
    workload is responsible for, the run of the event function is a single
    crossing, the ENSSessionNotify call made from the world it was invoked
    in; nothing follows that crossing.  Under the ownership rules the
    crossing is legal and hands the buffer to the runtime, whatever the
    runtime answers; no other buffer changes owner. *)
Theorem notify_hands_buffer_back_once {RT : Type} (rt : runtime RT) (n : nat)
    (session_id event_type sqn : uint32) (data : addr) (w : World RT)
    (o : ownership) (ud : ENSUserData) :
  event_type = EVENT_NOTIFY ->
  descs w data = Some ud ->
  o (p ud) = OwnedByWorkload ->
  exists (x : crossing RT) (w' : World RT) (o' : ownership),
    exec rt (S (S n)) (event_handler session_id event_type sqn data) w = Some (tt, w', [x])
    /\ call x = ENSSessionNotify session_id sqn data
    /\ before x = w
    /\ audit o [x] = Some o'
    /\ o' (p ud) = OwnedByRuntime
    /\ forall b : addr, b <> p ud -> o' b = o b.
Proof.
  intros -> Hud Hown. rewrite exec_notify. cbn zeta.
  eexists _, _, (hand_over o (p ud) OwnedByRuntime).
  split; [reflexivity |].
  split; [reflexivity |].
  split; [reflexivity |].
  split; [| split].
  - cbn. rewrite Hud, Hown. reflexivity.
  - apply hand_over_same.
  - intros b Hb. apply hand_over_other, Hb.
Qed.

Lemma notify_hands_buffer_back_once_witness :
  EVENT_NOTIFY = EVENT_NOTIFY
  /\ descs (deliver empty_world 4096 8192 ping) 4096 = Some (mkENSUserData 4 8192)
  /\ received (p (mkENSUserData 4 8192)) = OwnedByWorkload
  /\ exists (x : crossing outbox) (w' : World outbox) (o' : ownership),
       exec (queueing_runtime false) 2 (event_handler 7 EVENT_NOTIFY 5 4096)
         (deliver empty_world 4096 8192 ping)
       = Some (tt, w', [x])
       /\ call x = ENSSessionNotify 7 5 4096
       /\ before x = deliver empty_world 4096 8192 ping
       /\ audit received [x] = Some o'
       /\ o' (p (mkENSUserData 4 8192)) = OwnedByRuntime
       /\ forall b : addr, b <> p (mkENSUserData 4 8192) -> o' b = received b.
Proof.
  split; [reflexivity | split; [reflexivity | split; [reflexivity |]]].
  apply (notify_hands_buffer_back_once (queueing_runtime false) 0 7 EVENT_NOTIFY 5 4096
           (deliver empty_world 4096 8192 ping) received (mkENSUserData 4 8192));
    reflexivity.
Defined.

(** ** Sequence numbers *)

(** C5.  If the event carries a non-zero sequence number whenever it is a
    data-transfer event, then every send the event function makes (its
    ENSSessionNotify calls) carries a non-zero sequence number. *)
Theorem echoed_sqn_is_nonzero {RT : Type} (rt : runtime RT) (n : nat)
    (session_id event_type sqn : uint32) (data : addr) (w : World RT) :
  (data_transfer event_type = true -> sqn <> 0) ->
  exists (w' : World RT) (tr : trace RT),
    exec rt (S (S n)) (event_handler session_id event_type sqn data) w = Some (tt, w', tr)
    /\ Forall (fun c => forall q : uint32, send_sqn c = Some q -> q <> 0) (calls tr).
Proof.
  intros Hsqn.
  destruct (exec_calls rt n session_id event_type sqn data w) as (w' & tr & Hrun & Hcalls).
  exists w', tr. split; [exact Hrun |].
  rewrite Hcalls. unfold echoed.
  destruct (Z.eqb_spec event_type EVENT_NOTIFY) as [-> | Hne].
  - constructor; [| constructor].
    intros q Hq. cbn in Hq. injection Hq as <-. apply Hsqn. reflexivity.
  - constructor.
Qed.

Lemma echoed_sqn_is_nonzero_witness :
  (data_transfer EVENT_NOTIFY = true -> 5 <> 0)
  /\ exists (w' : World outbox) (tr : trace outbox),
       exec (queueing_runtime true) 2 (event_handler 7 EVENT_NOTIFY 5 4096) empty_world
       = Some (tt, w', tr)
       /\ Forall (fun c => forall q : uint32, send_sqn c = Some q -> q <> 0) (calls tr).
Proof.
  split; [intros _; discriminate |].
  apply (echoed_sqn_is_nonzero (queueing_runtime true) 0 7 EVENT_NOTIFY 5 4096 empty_world).
  intros _. discriminate.
Defined.

(** ** Calls that block *)

(** C7.  Whatever the event and whatever the runtime answers, every call the
    event function makes is an ENSSessionNotify call, and none is one of
    the operations that block on remote completion. *)
Theorem only_notify_is_called {RT : Type} (rt : runtime RT) (n : nat)
    (session_id event_type sqn : uint32) (data : addr) (w : World RT) :
  exists (w' : World RT) (tr : trace RT),
    exec rt (S (S n)) (event_handler session_id event_type sqn data) w = Some (tt, w', tr)
    /\ Forall (fun c => is_notify c = true /\ blocking c = false) (calls tr).
Proof.
  destruct (exec_calls rt n session_id event_type sqn data w) as (w' & tr & Hrun & Hcalls).
  exists w', tr. split; [exact Hrun |].
  rewrite Hcalls. unfold echoed.
  destruct (event_type =? EVENT_NOTIFY); repeat constructor.
Qed.

(** ** Termination *)

(** C9.  For every argument tuple and every runtime, two steps of the run
    suffice for the event function to return, and more fuel changes
    nothing; the run crosses the API at most once. *)
Theorem event_handler_returns {RT : Type} (rt : runtime RT)
    (session_id event_type sqn : uint32) (data : addr) (w : World RT) :
  exists (w' : World RT) (tr : trace RT),
    (forall n : nat,
       exec rt (S (S n)) (event_handler session_id event_type sqn data) w = Some (tt, w', tr))
    /\ (List.length tr <= 1)%nat.
Proof.
  destruct (Z.eqb_spec event_type EVENT_NOTIFY) as [-> | Hne].
  - eexists _, _. split.
    + intros n. rewrite exec_notify. cbn zeta. reflexivity.
    + cbn. lia.
  - exists w, []. split.
    + intros n. apply exec_other, Hne.
    + cbn. lia.
Qed.

(** ** Re-entrancy *)

Section Progress.

Context {RT : Type}.
Variable rt : runtime RT.
Variables session_id event_type sqn : uint32.
Variable data : addr.

Lemma step_advances (k : nat) (th : thread) (w : World RT) :
  at_stage session_id event_type sqn data k th ->
  at_stage session_id event_type sqn data (S k) (fst (step rt th w)).
Proof.
  destruct k as [| [| k]]; cbn [at_stage].
  - intros ->. unfold echoed, event_handler, step, spawn.
    cbn [code made finished].
    destruct (event_type =? EVENT_NOTIFY).
    + cbn. destruct (rt (ENSSessionNotify session_id sqn data) w) as [r w1].
      cbn. split; reflexivity.
    + cbn. split; reflexivity.
  - intros [Hret Hmade]. unfold step. rewrite Hret. cbn. auto.
  - intros (Hret & Hmade & _). unfold step. rewrite Hret. cbn. auto.
Qed.

Lemma returned_has_echoed (k : nat) (th : thread) :
  at_stage session_id event_type sqn data k th ->
  finished th = true ->
  made th = echoed session_id event_type sqn data.
Proof.
  destruct k as [| [| k]]; cbn [at_stage].
  - intros -> Hfin. discriminate Hfin.
  - intros [_ Hmade] _. exact Hmade.
  - intros (_ & Hmade & _) _. exact Hmade.
Qed.

Lemma two_steps_return (k : nat) (th : thread) :
  at_stage session_id event_type sqn data k th -> (2 <= k)%nat -> finished th = true.
Proof.
  destruct k as [| [| k]]; cbn [at_stage]; [lia | lia |].
  intros (_ & _ & Hfin) _. exact Hfin.
Qed.

End Progress.

Section Interleaving.

Context {RT : Type}.
Variable rt : runtime RT.
Variables session_id1 event_type1 sqn1 session_id2 event_type2 sqn2 : uint32.
Variables data1 data2 : addr.

(** Each invocation advances by the steps the schedule gives it, whatever
    the other one does to the shared world in between. *)
Lemma interleave_advances (sched : list bool) :
  forall (k1 k2 : nat) (t1 t2 : thread) (w : World RT),
    at_stage session_id1 event_type1 sqn1 data1 k1 t1 ->
    at_stage session_id2 event_type2 sqn2 data2 k2 t2 ->
    at_stage session_id1 event_type1 sqn1 data1
      (k1 + count_occ bool_dec sched true)
      (fst (fst (interleave rt sched t1 t2 w)))
    /\ at_stage session_id2 event_type2 sqn2 data2
         (k2 + count_occ bool_dec sched false)
         (snd (fst (interleave rt sched t1 t2 w))).
Proof.
  induction sched as [| [|] sched IH]; intros k1 k2 t1 t2 w H1 H2.
  - cbn. rewrite !Nat.add_0_r. auto.
  - cbn [interleave count_occ]. destruct (bool_dec true true) as [_ | Hf]; [| congruence].
    destruct (bool_dec true false) as [Hf | _]; [discriminate |].
    pose proof (step_advances rt _ _ _ _ k1 t1 w H1) as H1'.
    destruct (step rt t1 w) as [t1' w'].
    rewrite Nat.add_succ_r. apply (IH (S k1) k2); assumption.
  - cbn [interleave count_occ]. destruct (bool_dec false false) as [_ | Hf]; [| congruence].
    destruct (bool_dec false true) as [Hf | _]; [discriminate |].
    pose proof (step_advances rt _ _ _ _ k2 t2 w H2) as H2'.
    destruct (step rt t2 w) as [t2' w'].
    rewrite Nat.add_succ_r. apply (IH k1 (S k2)); assumption.
Qed.

End Interleaving.

(** C6.  The calls of an invocation are a function of its arguments alone:
    run against any two runtimes from any two worlds, the same arguments
    give the same sequence of calls.  When two invocations for one session
    are interleaved step by step on a shared world, under every schedule
    each one that has returned has made exactly the calls it makes when it
    runs alone, and each returns once it has been given two steps. *)
Theorem invocations_do_not_interfere {RT RT' : Type}
    (rt : runtime RT) (rt' : runtime RT') (w : World RT) (w' : World RT')
    (n : nat) (sched : list bool)
    (session_id event_type1 sqn1 event_type2 sqn2 : uint32) (data1 data2 : addr) :
  exists (tr1 tr2 : trace RT') (w1 w2 : World RT'),
    exec rt' (S (S n)) (event_handler session_id event_type1 sqn1 data1) w' = Some (tt, w1, tr1)
    /\ exec rt' (S (S n)) (event_handler session_id event_type2 sqn2 data2) w' = Some (tt, w2, tr2)
    /\ (exists (tr : trace RT) (w3 : World RT),
          exec rt (S (S n)) (event_handler session_id event_type1 sqn1 data1) w
          = Some (tt, w3, tr)
          /\ calls tr = calls tr1)
    /\ match interleave rt sched
               (spawn (event_handler session_id event_type1 sqn1 data1))
               (spawn (event_handler session_id event_type2 sqn2 data2)) w
       with
       | (t1, t2, _) =>
           (finished t1 = true -> made t1 = calls tr1)
           /\ (finished t2 = true -> made t2 = calls tr2)
           /\ ((2 <= count_occ bool_dec sched true)%nat -> finished t1 = true)
           /\ ((2 <= count_occ bool_dec sched false)%nat -> finished t2 = true)
       end.
Proof.
  destruct (exec_calls rt' n session_id event_type1 sqn1 data1 w') as (w1 & tr1 & Hrun1 & Hc1).
  destruct (exec_calls rt' n session_id event_type2 sqn2 data2 w') as (w2 & tr2 & Hrun2 & Hc2).
  destruct (exec_calls rt n session_id event_type1 sqn1 data1 w) as (w3 & tr & Hrun & Hc).
  exists tr1, tr2, w1, w2.
  split; [exact Hrun1 | split; [exact Hrun2 | split]].
  - exists tr, w3. split; [exact Hrun | congruence].
  - pose proof (interleave_advances rt session_id event_type1 sqn1 session_id event_type2 sqn2
                  data1 data2 sched 0 0 _ _ w eq_refl eq_refl) as [H1 H2].
    destruct (interleave rt sched _ _ w) as [[t1 t2] w4]. cbn [fst snd] in H1, H2.
    rewrite Hc1, Hc2. repeat split.
    + apply (returned_has_echoed _ _ _ _ _ _ H1).
    + apply (returned_has_echoed _ _ _ _ _ _ H2).
    + intros Hk. apply (two_steps_return _ _ _ _ _ _ H1). cbn. exact Hk.
    + intros Hk. apply (two_steps_return _ _ _ _ _ _ H2). cbn. exact Hk.
Qed.

(** Two notifies of session 7 on two workers: the first worker calls, the
    second calls and returns, then the first returns. *)
Example interleaved_notifies :
  match interleave (queueing_runtime true) [true; false; false; true]
          (spawn (event_handler 7 EVENT_NOTIFY 5 4096))
          (spawn (event_handler 7 EVENT_NOTIFY 6 4100)) empty_world
  with
  | (t1, t2, w) =>
      made t1 = [ENSSessionNotify 7 5 4096]
      /\ made t2 = [ENSSessionNotify 7 6 4100]
      /\ finished t1 && finished t2 = true
      /\ rts w = [(7, 5, None); (7, 6, None)]
  end.
Proof. cbn. repeat split. Qed.

(** ** The round trip *)

(** C8, as stated, fails: with this workload at the far end, the request of
    the round-trip scenario does not come back with "pong". *)
Lemma round_trip_is_not_pong :
  ~ (exists (w1 : World outbox) (tr : trace outbox),
       exec (queueing_runtime true) 2 (event_handler 7 EVENT_REQUEST 42 4096)
         (deliver empty_world 4096 8192 ping)
       = Some (tt, w1, tr)
       /\ package w1 4096 = Some pong
       /\ request (queueing_runtime true) 2 event_handler empty_world 4096 8192 7 42 ping
          = (true, pong)).
Proof.
  intros (w1 & tr & _ & _ & Hreq). vm_compute in Hreq. discriminate Hreq.
Qed.

(** C8, amended.  In the round-trip scenario with this workload as workload
    B: the callback receives (7, REQUEST, 42, "ping"), returns with the user
    data still "ping", and the request of workload A returns true with user
    data "ping". *)
Theorem round_trip_echoes_ping {RT : Type} (rt : runtime RT) (n : nat)
    (w : World RT) (d b : addr) :
  package (deliver w d b ping) d = Some ping
  /\ exec rt (S n) (event_handler 7 EVENT_REQUEST 42 d) (deliver w d b ping)
     = Some (tt, deliver w d b ping, [])
  /\ request rt (S n) event_handler w d b 7 42 ping = (true, ping).
Proof.
  assert (Hlen : Z.of_nat (List.length ping) < 2 ^ 32) by (vm_compute; reflexivity).
  assert (Hne : EVENT_REQUEST <> EVENT_NOTIFY) by discriminate.
  split; [apply package_deliver, Hlen | split].
  - apply exec_other, Hne.
  - unfold request, dispatch_request.
    rewrite (exec_other rt n _ _ _ _ _ Hne).
    rewrite (package_deliver _ _ _ _ Hlen). reflexivity.
Qed.

(** * Further properties of the event function *)

(** ** Runs of composed workloads *)

Section Composition.

Context {RT : Type}.
Variable rt : runtime RT.

(** A run looks at a tree through its first node only. *)
Lemma exec_observe {A : Type} (n : nat) (t u : itree ensE A) (w : World RT) :
  observe t = observe u -> exec rt n t w = exec rt n u w.
Proof.
  intros Hobs. destruct n as [| n]; [reflexivity |].
  cbn [exec]. rewrite Hobs. reflexivity.
Qed.

(** More fuel does not change the result of a run that returned. *)
Lemma exec_more_fuel {A : Type} (n : nat) :
  forall (t : itree ensE A) (w : World RT) (r : A * World RT * trace RT) (m : nat),
    exec rt n t w = Some r -> exec rt (n + m) t w = Some r.
Proof.
  induction n as [| n IH]; intros t w r m Hrun; [discriminate Hrun |].
  cbn [exec Nat.add] in *.
  destruct (observe t) as [a | t' | X e k].
  - exact Hrun.
  - apply IH, Hrun.
  - destruct e as [c]. destruct (rt c w) as [x w1].
    destruct (exec rt n (k x) w1) as [[[a w2] tr] |] eqn:Hk; [| discriminate Hrun].
    rewrite (IH _ _ _ m Hk). exact Hrun.
Qed.

(** The run of a sequence is the run of its first part followed by the run
    of the rest, from the world and with the result the first part left. *)
Lemma exec_bind {A B : Type} (k : A -> itree ensE B) (n : nat) :
  forall (t : itree ensE A) (w w1 w2 : World RT) (a : A) (b : B) (tr1 tr2 : trace RT) (m : nat),
    exec rt n t w = Some (a, w1, tr1) ->
    exec rt m (k a) w1 = Some (b, w2, tr2) ->
    exec rt (n + m) (ITree.bind t k) w = Some (b, w2, tr1 ++ tr2).
Proof.
  induction n as [| n IH]; intros t w w1 w2 a b tr1 tr2 m Ht Hk; [discriminate Ht |].
  cbn [exec] in Ht.
  destruct (observe t) as [a' | t' | X e h] eqn:Hobs.
  - injection Ht as -> -> <-.
    rewrite (exec_observe _ (ITree.bind t k) (k a)).
    + rewrite Nat.add_comm. cbn [app]. apply exec_more_fuel, Hk.
    + rewrite observe_bind, Hobs. reflexivity.
  - cbn [Nat.add exec]. rewrite observe_bind, Hobs. cbn.
    apply (IH _ _ _ _ _ _ _ _ _ Ht Hk).
  - cbn [Nat.add exec]. rewrite observe_bind, Hobs. cbn.
    destruct e as [c]. destruct (rt c w) as [x w'].
    destruct (exec rt n (h x) w') as [[[a' w1'] tr'] |] eqn:Hh; [| discriminate Ht].
    injection Ht as -> -> <-.
    rewrite (IH _ _ _ _ _ _ _ _ _ Hh Hk). reflexivity.
Qed.

End Composition.

(** ** Events handled one after another *)

Section Serving.

Context {RT : Type}.
Variable rt : runtime RT.

Lemma serve_runs (events : list event) :
  forall w : World RT,
    exists (w' : World RT) (tr : trace RT),
      exec rt (S (2 * List.length events)) (serve event_handler events) w = Some (tt, w', tr)
      /\ calls tr = flat_map echo events.
Proof.
  induction events as [| e rest IH]; intros w.
  - exists w, []. split; reflexivity.
  - destruct (exec_calls rt 0 (ev_session e) (ev_type e) (ev_sqn e) (ev_data e) w)
      as (w1 & tr1 & Hrun1 & Hcalls1).
    destruct (IH w1) as (w2 & tr2 & Hrun2 & Hcalls2).
    exists w2, (tr1 ++ tr2). split.
    + replace (S (2 * List.length (e :: rest)))
        with (2 + S (2 * List.length rest))%nat by (cbn [List.length]; lia).
      cbn [serve]. apply (exec_bind rt _ _ _ _ _ _ _ _ _ _ _ Hrun1 Hrun2).
    + unfold calls in *. rewrite map_app, Hcalls1, Hcalls2. reflexivity.
Qed.

Lemma echo_length (e : event) :
  List.length (echo e) = if is_notify_event e then 1%nat else 0%nat.
Proof.
  unfold echo, echoed, is_notify_event. destruct (ev_type e =? EVENT_NOTIFY); reflexivity.
Qed.

Lemma echoes_counted (events : list event) :
  List.length (flat_map echo events) = List.length (filter is_notify_event events).
Proof.
  induction events as [| e rest IH]; [reflexivity |].
  cbn [flat_map filter]. rewrite length_app, echo_length, IH.
  destruct (is_notify_event e); reflexivity.
Qed.

End Serving.

(** X1.  Handling any sequence of events one after another returns, within
    two steps per event and one more; the calls made are, in the order of
    the events, one ENSSessionNotify per notify event with the session,
    sequence number and ENSUserData pointer of that event, and nothing for
    the other events; so there are as many crossings as notify events. *)
Theorem serve_echoes_each_notify {RT : Type} (rt : runtime RT) (events : list event)
    (n : nat) (w : World RT) :
  exists (w' : World RT) (tr : trace RT),
    exec rt (S (2 * List.length events) + n) (serve event_handler events) w = Some (tt, w', tr)
    /\ calls tr = flat_map echo events
    /\ List.length tr = List.length (filter is_notify_event events).
Proof.
  destruct (serve_runs rt events w) as (w' & tr & Hrun & Hcalls).
  exists w', tr. split; [| split].
  - apply exec_more_fuel, Hrun.
  - exact Hcalls.
  - rewrite <- echoes_counted, <- Hcalls. unfold calls. rewrite length_map. reflexivity.
Qed.

(** Session 7 is started, notified twice around a request, and ended. *)
Example serve_session_7 :
  option_map (fun r => (calls (snd r), rts (snd (fst r))))
    (exec (queueing_runtime true) 11
       (serve event_handler
          [mkEvent 7 EVENT_SESSION_START 0 0; mkEvent 7 EVENT_NOTIFY 5 4096;
           mkEvent 7 EVENT_REQUEST 42 4100; mkEvent 7 EVENT_NOTIFY 6 4104;
           mkEvent 7 EVENT_SESSION_END 0 0])
       empty_world)
  = Some ([ENSSessionNotify 7 5 4096; ENSSessionNotify 7 6 4104],
          [(7, 5, None); (7, 6, None)]).
Proof. reflexivity. Qed.

(** X2.  Handling a sequence of events none of which is a notify returns
    within one step per event and one more, without crossing the API and
    with the world as it was. *)
Theorem serve_without_notify_is_silent {RT : Type} (rt : runtime RT) (events : list event)
    (n : nat) (w : World RT) :
  Forall (fun e => ev_type e <> EVENT_NOTIFY) events ->
  exec rt (S (List.length events) + n) (serve event_handler events) w = Some (tt, w, []).
Proof.
  intros Hnone. apply exec_more_fuel.
  induction Hnone as [| e rest He _ IH]; [reflexivity |].
  change (S (List.length (e :: rest))) with (1 + S (List.length rest))%nat.
  cbn [serve].
  apply (exec_bind rt _ 1 _ w w w tt tt [] [] _); [| exact IH].
  apply (exec_other rt 0 _ _ _ _ w He).
Qed.

Lemma serve_without_notify_is_silent_witness :
  Forall (fun e => ev_type e <> EVENT_NOTIFY)
    [mkEvent 9 EVENT_SESSION_START 0 0; mkEvent 9 EVENT_REQUEST 42 4096;
     mkEvent 9 EVENT_SESSION_DISCONNECT 0 0]
  /\ exec (queueing_runtime true) 4
       (serve event_handler
          [mkEvent 9 EVENT_SESSION_START 0 0; mkEvent 9 EVENT_REQUEST 42 4096;
           mkEvent 9 EVENT_SESSION_DISCONNECT 0 0])
       (deliver empty_world 4096 8192 ping)
     = Some (tt, deliver empty_world 4096 8192 ping, []).
Proof.
  assert (H : Forall (fun e => ev_type e <> EVENT_NOTIFY)
                [mkEvent 9 EVENT_SESSION_START 0 0; mkEvent 9 EVENT_REQUEST 42 4096;
                 mkEvent 9 EVENT_SESSION_DISCONNECT 0 0])
    by (repeat constructor; discriminate).
  split; [exact H |].
  apply (serve_without_notify_is_silent (queueing_runtime true) _ 0
           (deliver empty_world 4096 8192 ping) H).
Defined.

(** ** Any number of concurrent invocations *)

Lemma nth_error_replace_same {A : Type} (x : A) (l : list A) :
  forall (i : nat) (y : A),
    nth_error l i = Some y -> nth_error (replace_nth i x l) i = Some x.
Proof.
  induction l as [| z l IH]; intros [| i] y Hy; cbn in *; try discriminate.
  - reflexivity.
  - apply (IH _ _ Hy).
Qed.

Lemma nth_error_replace_other {A : Type} (x : A) (l : list A) :
  forall i j : nat, i <> j -> nth_error (replace_nth i x l) j = nth_error l j.
Proof.
  induction l as [| z l IH]; intros [| i] [| j] Hne; cbn; try reflexivity.
  - contradiction.
  - apply IH. intros ->. apply Hne. reflexivity.
Qed.

Section PoolProgress.

Context {RT : Type}.
Variable rt : runtime RT.
Variable events : list event.

(** Each worker advances by the steps the schedule gives it, whatever the
    other workers do to the shared world in between. *)
Lemma pool_advances (sched : list nat) :
  forall (ks : nat -> nat) (workers : list thread) (w : World RT),
    (forall (i : nat) (e : event),
       nth_error events i = Some e ->
       exists th : thread,
         nth_error workers i = Some th
         /\ at_stage (ev_session e) (ev_type e) (ev_sqn e) (ev_data e) (ks i) th) ->
    forall (i : nat) (e : event),
      nth_error events i = Some e ->
      exists th : thread,
        nth_error (fst (pool_run rt sched workers w)) i = Some th
        /\ at_stage (ev_session e) (ev_type e) (ev_sqn e) (ev_data e)
             (ks i + count_occ Nat.eq_dec sched i) th.
Proof.
  induction sched as [| i0 sched IH]; intros ks workers w Hinv i e He.
  - cbn. rewrite Nat.add_0_r. apply Hinv, He.
  - cbn [pool_run count_occ].
    destruct (nth_error workers i0) as [th0 |] eqn:Hth0.
    + pose (ks' := fun j : nat => if Nat.eq_dec i0 j then S (ks j) else ks j).
      destruct (step rt th0 w) as [th0' w'] eqn:Hstep.
      assert (Hinv' : forall (j : nat) (e' : event),
                 nth_error events j = Some e' ->
                 exists th : thread,
                   nth_error (replace_nth i0 th0' workers) j = Some th
                   /\ at_stage (ev_session e') (ev_type e') (ev_sqn e') (ev_data e') (ks' j) th).
      { intros j e' He'. destruct (Hinv j e' He') as (th & Hth & Hstage).
        unfold ks'. destruct (Nat.eq_dec i0 j) as [<- | Hne].
        - exists th0'. split; [apply (nth_error_replace_same _ _ _ _ Hth0) |].
          rewrite Hth0 in Hth. injection Hth as <-.
          pose proof (step_advances rt _ _ _ _ _ th0 w Hstage) as Hadv.
          rewrite Hstep in Hadv. exact Hadv.
        - exists th. split; [| exact Hstage].
          rewrite (nth_error_replace_other _ _ _ _ Hne). exact Hth. }
      destruct (IH ks' _ w' Hinv' i e He) as (th & Hth & Hstage).
      exists th. split; [exact Hth |].
      unfold ks' in Hstage. destruct (Nat.eq_dec i0 i) as [_ | _].
      * rewrite Nat.add_succ_r. exact Hstage.
      * exact Hstage.
    + destruct (IH ks workers w Hinv i e He) as (th & Hth & Hstage).
      exists th. split; [exact Hth |].
      destruct (Nat.eq_dec i0 i) as [<- | _]; [| exact Hstage].
      destruct (Hinv i0 e He) as (th1 & Hth1 & _). congruence.
Qed.

End PoolProgress.

(** X3.  However many invocations of the event function run concurrently on
    a shared world, and under every schedule of their steps: a worker that
    has returned has made exactly the call of its own event (one
    ENSSessionNotify for a notify, none otherwise), and a worker returns
    once the schedule has given it two steps. *)
Theorem pool_workers_do_not_interfere {RT : Type} (rt : runtime RT) (events : list event)
    (sched : list nat) (w : World RT) (i : nat) (e : event) :
  nth_error events i = Some e ->
  exists th : thread,
    nth_error
      (fst (pool_run rt sched (List.map (fun e' => spawn (invoke event_handler e')) events) w))
      i = Some th
    /\ (finished th = true -> made th = echo e)
    /\ ((2 <= count_occ Nat.eq_dec sched i)%nat -> finished th = true).
Proof.
  intros He.
  destruct (pool_advances rt events sched (fun _ => 0%nat)
              (List.map (fun e' => spawn (invoke event_handler e')) events) w) with (i := i) (e := e)
    as (th & Hth & Hstage).
  - intros j e' He'. exists (spawn (invoke event_handler e')). split; [| reflexivity].
    rewrite nth_error_map, He'. reflexivity.
  - exact He.
  - exists th. split; [exact Hth | split].
    + apply (returned_has_echoed _ _ _ _ _ _ Hstage).
    + intros Hk. apply (two_steps_return _ _ _ _ _ _ Hstage). cbn. exact Hk.
Qed.

Lemma pool_workers_do_not_interfere_witness :
  nth_error [mkEvent 7 EVENT_NOTIFY 5 4096; mkEvent 7 EVENT_REQUEST 42 4100;
             mkEvent 7 EVENT_NOTIFY 6 4104] 2
  = Some (mkEvent 7 EVENT_NOTIFY 6 4104)
  /\ exists th : thread,
       nth_error
         (fst (pool_run (queueing_runtime true) [2; 0; 1; 5; 0; 2]%nat
                 (List.map (fun e' => spawn (invoke event_handler e'))
                    [mkEvent 7 EVENT_NOTIFY 5 4096; mkEvent 7 EVENT_REQUEST 42 4100;
                     mkEvent 7 EVENT_NOTIFY 6 4104])
                 empty_world))
         2 = Some th
       /\ (finished th = true -> made th = echo (mkEvent 7 EVENT_NOTIFY 6 4104))
       /\ ((2 <= count_occ Nat.eq_dec [2; 0; 1; 5; 0; 2]%nat 2)%nat -> finished th = true).
Proof.
  split; [reflexivity |].
  apply (pool_workers_do_not_interfere (queueing_runtime true)
           [mkEvent 7 EVENT_NOTIFY 5 4096; mkEvent 7 EVENT_REQUEST 42 4100;
            mkEvent 7 EVENT_NOTIFY 6 4104]
           [2; 0; 1; 5; 0; 2]%nat empty_world 2%nat (mkEvent 7 EVENT_NOTIFY 6 4104)).
  reflexivity.
Defined.

(** ** What the echo relies on *)

(** X4.  The event function forwards a notify without looking at it: on
    every EVENT_NOTIFY event it makes the ENSSessionNotify call, and under
    the ownership rules that crossing is legal exactly when the ENSUserData
    pointer it was given is valid and references a buffer the workload
    owns. *)
Theorem echo_is_legal_iff_buffer_was_given {RT : Type} (rt : runtime RT) (n : nat)
    (session_id sqn : uint32) (data : addr) (w : World RT) (o : ownership) :
  exists (w' : World RT) (x : crossing RT),
    exec rt (S (S n)) (event_handler session_id EVENT_NOTIFY sqn data) w = Some (tt, w', [x])
    /\ call x = ENSSessionNotify session_id sqn data
    /\ ((exists o' : ownership, audit o [x] = Some o')
        <-> (exists ud : ENSUserData,
               descs w data = Some ud /\ o (p ud) = OwnedByWorkload)).
Proof.
  rewrite exec_notify. cbn zeta. eexists _, _.
  split; [reflexivity | split; [reflexivity |]].
  cbn. destruct (descs w data) as [ud |].
  - destruct (o (p ud)) eqn:Hown; cbn; split.
    + intros [o' Ho']. discriminate Ho'.
    + intros (ud' & Hud' & Hown'). injection Hud' as <-. congruence.
    + intros [o' Ho']. discriminate Ho'.
    + intros (ud' & Hud' & Hown'). injection Hud' as <-. congruence.
    + intros _. exists ud. split; [reflexivity | exact Hown].
    + intros _. eexists. reflexivity.
  - split.
    + intros [o' Ho']. discriminate Ho'.
    + intros (ud' & Hud' & _). discriminate Hud'.
Qed.

(** X5.  The run of the event function depends on the runtime only through
    the answer and the effect of the one ENSSessionNotify call it may make:
    two runtimes that agree on that call, from that world, give the same
    run, however they differ elsewhere. *)
Theorem run_depends_on_notify_only {RT : Type} (rt1 rt2 : runtime RT) (fuel : nat)
    (session_id event_type sqn : uint32) (data : addr) (w : World RT) :
  rt1 (ENSSessionNotify session_id sqn data) w = rt2 (ENSSessionNotify session_id sqn data) w ->
  exec rt1 fuel (event_handler session_id event_type sqn data) w
  = exec rt2 fuel (event_handler session_id event_type sqn data) w.
Proof.
  intros Hagree. unfold event_handler.
  destruct (event_type =? EVENT_NOTIFY).
  - destruct fuel as [| [| n]]; [reflexivity | |]; cbn; rewrite Hagree; reflexivity.
  - destruct fuel as [| n]; reflexivity.
Qed.

Lemma run_depends_on_notify_only_witness :
  queueing_runtime true (ENSSessionNotify 7 5 4096) empty_world
  = dropping_runtime true (ENSSessionNotify 7 5 4096) empty_world
  /\ queueing_runtime true (ENSSessionAlloc 4) empty_world
     <> dropping_runtime true (ENSSessionAlloc 4) empty_world
  /\ exec (queueing_runtime true) 2 (event_handler 7 EVENT_NOTIFY 5 4096) empty_world
     = exec (dropping_runtime true) 2 (event_handler 7 EVENT_NOTIFY 5 4096) empty_world.
Proof.
  split; [reflexivity | split].
  - intros H. discriminate H.
  - apply (run_depends_on_notify_only (queueing_runtime true) (dropping_runtime true) 2
             7 EVENT_NOTIFY 5 4096 empty_world).
    reflexivity.
Defined.

(** ** Ownership over a stream of events *)

Section StreamOwnership.

Context {RT : Type}.
Variable rt : runtime RT.

(** The runtime's notify leaves the [ENSUserData] structures as they are. *)
Hypothesis notify_keeps_descs :
  forall (session_id sqn : uint32) (d : addr) (w : World RT),
    descs (snd (rt (ENSSessionNotify session_id sqn d) w)) = descs w.

Lemma audit_app (tr1 tr2 : trace RT) :
  forall o : ownership,
    audit o (tr1 ++ tr2)
    = match audit o tr1 with
      | Some o1 => audit o1 tr2
      | None => None
      end.
Proof.
  induction tr1 as [| x tr1 IH]; intros o; [reflexivity |].
  cbn [app audit]. destruct (cross o x) as [o1 |]; [apply IH | reflexivity].
Qed.

Lemma notified_buffer_in (ds : addr -> option ENSUserData) (events : list event)
    (e : event) (ud : ENSUserData) :
  In e events -> is_notify_event e = true -> ds (ev_data e) = Some ud ->
  In (p ud) (notified_buffers ds events).
Proof.
  intros Hin Hnot Hud. unfold notified_buffers. apply in_flat_map.
  exists e. split; [exact Hin |]. rewrite Hnot, Hud. left. reflexivity.
Qed.

Lemma serve_hands_over (events : list event) :
  forall (w : World RT) (o : ownership),
    (forall e : event,
       In e events -> is_notify_event e = true ->
       exists ud : ENSUserData, descs w (ev_data e) = Some ud /\ o (p ud) = OwnedByWorkload) ->
    NoDup (notified_buffers (descs w) events) ->
    exists (w' : World RT) (tr : trace RT) (o' : ownership),
      exec rt (S (2 * List.length events)) (serve event_handler events) w = Some (tt, w', tr)
      /\ audit o tr = Some o'
      /\ (forall b : addr, In b (notified_buffers (descs w) events) -> o' b = OwnedByRuntime)
      /\ (forall b : addr, ~ In b (notified_buffers (descs w) events) -> o' b = o b).
Proof.
  induction events as [| e rest IH]; intros w o Hown Hnodup.
  - exists w, [], o. repeat split; try reflexivity. intros b [].
  - replace (S (2 * List.length (e :: rest)))
      with (2 + S (2 * List.length rest))%nat by (cbn [List.length]; lia).
    cbn [serve]. unfold invoke at 1.
    destruct (is_notify_event e) eqn:Hnot.
    + destruct (Hown e (or_introl eq_refl) Hnot) as (ud & Hud & Howned).
      assert (Hty : ev_type e = EVENT_NOTIFY) by (apply Z.eqb_eq, Hnot).
      assert (Hbufs : notified_buffers (descs w) (e :: rest)
                      = p ud :: notified_buffers (descs w) rest)
        by (unfold notified_buffers; cbn [flat_map]; rewrite Hnot, Hud; reflexivity).
      rewrite Hbufs in *. inversion Hnodup as [| b l Hfresh Hnodup' Heq]; subst b l.
      pose (c := ENSSessionNotify (ev_session e) (ev_sqn e) (ev_data e)).
      pose proof (notify_keeps_descs (ev_session e) (ev_sqn e) (ev_data e) w) as Hkeep.
      fold c in Hkeep.
      destruct (IH (snd (rt c w)) (hand_over o (p ud) OwnedByRuntime))
        as (w' & tr & o' & Hrun & Haudit & Hin & Hout).
      { intros e' Hin' Hnot'. destruct (Hown e' (or_intror Hin') Hnot') as (ud' & Hud' & Hown').
        exists ud'. rewrite Hkeep. split; [exact Hud' |].
        rewrite hand_over_other; [exact Hown' |].
        intros Heq. apply Hfresh. rewrite <- Heq.
        apply (notified_buffer_in _ _ e' ud' Hin' Hnot' Hud'). }
      { rewrite Hkeep. exact Hnodup'. }
      rewrite Hkeep in Hin, Hout.
      exists w', (mkCrossing c (fst (rt c w)) w (snd (rt c w)) :: tr), o'.
      split; [| split; [| split]].
      * rewrite Hty.
        apply (exec_bind rt _ 2 _ w (snd (rt c w)) w' tt tt
                 [mkCrossing c (fst (rt c w)) w (snd (rt c w))] tr _); [| exact Hrun].
        apply (exec_notify rt 0).
      * cbn [audit cross]. unfold c at 1. cbn. rewrite Hud, Howned. cbn. exact Haudit.
      * intros b [<- | Hb].
        -- rewrite (Hout _ Hfresh). apply hand_over_same.
        -- apply Hin, Hb.
      * intros b Hb. rewrite Hout.
        -- apply hand_over_other. intros ->. apply Hb. left. reflexivity.
        -- intros Hb'. apply Hb. right. exact Hb'.
    + assert (Hty : ev_type e <> EVENT_NOTIFY) by (apply Z.eqb_neq, Hnot).
      assert (Hbufs : notified_buffers (descs w) (e :: rest) = notified_buffers (descs w) rest)
        by (unfold notified_buffers; cbn [flat_map]; rewrite Hnot; reflexivity).
      rewrite Hbufs in *.
      destruct (IH w o) as (w' & tr & o' & Hrun & Haudit & Hin & Hout).
      { intros e' Hin' Hnot'. apply (Hown e' (or_intror Hin') Hnot'). }
      { exact Hnodup. }
      exists w', tr, o'. split; [| auto].
      apply (exec_bind rt _ 2 _ w w w' tt tt [] tr _); [| exact Hrun].
      apply (exec_other rt 1 _ _ _ _ w Hty).
Qed.

End StreamOwnership.

(** X6.  Over any sequence of events handled one after another, if every
    notify event references a buffer of its own that the workload owns, and
    the runtime's notify does not rewrite the ENSUserData structures, then
    under the ownership rules every crossing of the run is legal, every
    buffer of a notify event ends with the runtime, and no other buffer
    changes owner: nothing is handed over twice and nothing is kept. *)
Theorem serve_hands_every_buffer_back {RT : Type} (rt : runtime RT) (events : list event)
    (n : nat) (w : World RT) (o : ownership) :
  (forall (session_id sqn : uint32) (d : addr) (w0 : World RT),
     descs (snd (rt (ENSSessionNotify session_id sqn d) w0)) = descs w0) ->
  (forall e : event,
     In e events -> is_notify_event e = true ->
     exists ud : ENSUserData, descs w (ev_data e) = Some ud /\ o (p ud) = OwnedByWorkload) ->
  NoDup (notified_buffers (descs w) events) ->
  exists (w' : World RT) (tr : trace RT) (o' : ownership),
    exec rt (S (2 * List.length events) + n) (serve event_handler events) w = Some (tt, w', tr)
    /\ audit o tr = Some o'
    /\ (forall b : addr, In b (notified_buffers (descs w) events) -> o' b = OwnedByRuntime)
    /\ (forall b : addr, ~ In b (notified_buffers (descs w) events) -> o' b = o b).
Proof.
  intros Hkeep Hown Hnodup.
  destruct (serve_hands_over rt Hkeep events w o Hown Hnodup)
    as (w' & tr & o' & Hrun & Hrest).
  exists w', tr, o'. split; [apply exec_more_fuel, Hrun | exact Hrest].
Qed.

Lemma serve_hands_every_buffer_back_witness :
  (forall (session_id sqn : uint32) (d : addr) (w0 : World outbox),
     descs (snd (queueing_runtime false (ENSSessionNotify session_id sqn d) w0)) = descs w0)
  /\ (forall e : event,
        In e [mkEvent 7 EVENT_NOTIFY 5 4096; mkEvent 7 EVENT_REQUEST 42 4100;
              mkEvent 7 EVENT_NOTIFY 6 4104] ->
        is_notify_event e = true ->
        exists ud : ENSUserData,
          descs (deliver (deliver empty_world 4096 8192 ping) 4104 8200 pong) (ev_data e)
          = Some ud
          /\ hand_over received 8200 OwnedByWorkload (p ud) = OwnedByWorkload)
  /\ NoDup (notified_buffers
              (descs (deliver (deliver empty_world 4096 8192 ping) 4104 8200 pong))
              [mkEvent 7 EVENT_NOTIFY 5 4096; mkEvent 7 EVENT_REQUEST 42 4100;
               mkEvent 7 EVENT_NOTIFY 6 4104])
  /\ exists (w' : World outbox) (tr : trace outbox) (o' : ownership),
       exec (queueing_runtime false) 7
         (serve event_handler
            [mkEvent 7 EVENT_NOTIFY 5 4096; mkEvent 7 EVENT_REQUEST 42 4100;
             mkEvent 7 EVENT_NOTIFY 6 4104])
         (deliver (deliver empty_world 4096 8192 ping) 4104 8200 pong)
       = Some (tt, w', tr)
       /\ audit (hand_over received 8200 OwnedByWorkload) tr = Some o'
       /\ (forall b : addr,
             In b (notified_buffers
                     (descs (deliver (deliver empty_world 4096 8192 ping) 4104 8200 pong))
                     [mkEvent 7 EVENT_NOTIFY 5 4096; mkEvent 7 EVENT_REQUEST 42 4100;
                      mkEvent 7 EVENT_NOTIFY 6 4104]) ->
             o' b = OwnedByRuntime)
       /\ (forall b : addr,
             ~ In b (notified_buffers
                       (descs (deliver (deliver empty_world 4096 8192 ping) 4104 8200 pong))
                       [mkEvent 7 EVENT_NOTIFY 5 4096; mkEvent 7 EVENT_REQUEST 42 4100;
                        mkEvent 7 EVENT_NOTIFY 6 4104]) ->
             o' b = hand_over received 8200 OwnedByWorkload b).
Proof.
  assert (Hkeep : forall (session_id sqn : uint32) (d : addr) (w0 : World outbox),
             descs (snd (queueing_runtime false (ENSSessionNotify session_id sqn d) w0))
             = descs w0)
    by (intros; reflexivity).
  assert (Hown : forall e : event,
             In e [mkEvent 7 EVENT_NOTIFY 5 4096; mkEvent 7 EVENT_REQUEST 42 4100;
                   mkEvent 7 EVENT_NOTIFY 6 4104] ->
             is_notify_event e = true ->
             exists ud : ENSUserData,
               descs (deliver (deliver empty_world 4096 8192 ping) 4104 8200 pong) (ev_data e)
               = Some ud
               /\ hand_over received 8200 OwnedByWorkload (p ud) = OwnedByWorkload).
  { intros e [<- | [<- | [<- | []]]] Hnot.
    - exists (mkENSUserData 4 8192). split; reflexivity.
    - discriminate Hnot.
    - exists (mkENSUserData 4 8200). split; reflexivity. }
  assert (Hnodup : NoDup (notified_buffers
                            (descs (deliver (deliver empty_world 4096 8192 ping) 4104 8200 pong))
                            [mkEvent 7 EVENT_NOTIFY 5 4096; mkEvent 7 EVENT_REQUEST 42 4100;
                             mkEvent 7 EVENT_NOTIFY 6 4104])).
  { change (NoDup [8192; 8200]).
    constructor; [intros [H | []]; discriminate H |].
    constructor; [intros [] | constructor]. }
  split; [exact Hkeep | split; [exact Hown | split; [exact Hnodup |]]].
  apply (serve_hands_every_buffer_back (queueing_runtime false) _ 0 _ _ Hkeep Hown Hnodup).
Defined.

(** ** Events that leave no mark *)

(** X7.  Events that are not notifies do not show in the behaviour of the
    workload: handling a sequence of events is strongly bisimilar to
    handling its notify events alone. *)
Theorem serve_skips_other_events (events : list event) :
  serve event_handler events ≅ serve event_handler (filter is_notify_event events).
Proof.
  induction events as [| e rest IH]; [reflexivity |].
  cbn [serve filter]. destruct (is_notify_event e) eqn:Hnot.
  - cbn [serve]. apply eqit_bind; [reflexivity |]. intros []. exact IH.
  - unfold invoke. rewrite event_handler_other by (apply Z.eqb_neq, Hnot).
    rewrite bind_ret_l. exact IH.
Qed.
